(** * Car-following laws (carfollow.py): IDM and Tampere

    A shallow embedding of [src/carfollow.py] and the properties of its two
    laws.

    - Numbers are Python floats (IEEE-754 binary64, Rocq's primitive floats),
      as the source's annotations say; the integer literals of the source
      ([0], [1], [2], [DELTA = 4]) take part in float arithmetic as the
      floats Python converts them to.
    - An expression that can raise is a computation in an outcome monad, its
      sub-expressions evaluated from left to right as Python does.
    - A method that assigns an attribute of [self] returns the new [self].
    - The module [vehicles] (the class [Vehicle] and the constants [DT],
      [K_X], [W_I], [U_I]) is not among the sources: the constants, the base
      constructor and [shift_state] are parameters of the development. *)

From Stdlib Require Import Floats ZArith Bool String.

Set Warnings "-inexact-float,-register-all,-notation-for-abbreviation".

(** ** Outcomes of evaluating a Python expression *)

Module Py.

(** The exceptions the expressions of carfollow.py can raise. *)
Inductive exn : Type :=
| AttributeError (attr : string)   (* reading a slot that was never assigned *)
| ZeroDivisionError                (* [x / 0], [0.0 ** negative] *)
| ValueError                       (* math domain error *)
| OverflowError.                   (* range error reported by the C library *)

(** [Return v]: the expression evaluates to the float [v].
    [Raise e]: it raises [e].
    [Complex]: it evaluates to a complex number (a negative float raised
    to a fractional power does); the embedding does not follow the
    evaluation any further from there. *)
Inductive outcome (A : Type) : Type :=
| Return (v : A)
| Raise (e : exn)
| Complex.

Arguments Return {A} v.
Arguments Raise {A} e.
Arguments Complex {A}.

Definition bind {A B : Type} (m : outcome A) (k : A -> outcome B) : outcome B :=
  match m with
  | Return v => k v
  | Raise e => Raise e
  | Complex => Complex
  end.

Definition map {A B : Type} (f : A -> B) (m : outcome A) : outcome B :=
  bind m (fun v => Return (f v)).

(** Reading a slot declared in [__slots__]: an unassigned slot raises
    [AttributeError]. *)
Definition slot (name : string) (s : option float) : outcome float :=
  match s with
  | Some v => Return v
  | None => Raise (AttributeError name)
  end.

End Py.

Import Py.

Declare Scope py_scope.
Delimit Scope py_scope with py.
Notation "x <- m ;; k" := (bind m (fun x => k))
  (at level 61, m at next level, right associativity) : py_scope.
Open Scope py_scope.
Open Scope float_scope.

(** ** Python's float operations *)

Module PyFloat.

(** [x / y] on floats: a zero divisor (of either sign) raises. *)
Definition truediv (x y : float) : outcome float :=
  if y =? 0 then Raise ZeroDivisionError else Return (x / y).

(** [math.sqrt]: the C result is NaN for a negative operand, and the math
    module turns a NaN result of a non-NaN operand into [ValueError]. *)
Definition math_sqrt (x : float) : outcome float :=
  let r := PrimFloat.sqrt x in
  if is_nan r && negb (is_nan x) then Raise ValueError else Return r.

(** The builtin [max(a, b)] keeps [a] unless [b > a]; [min(a, b)] keeps
    [a] unless [b < a]. *)
Definition max (a b : float) : float := if a <? b then b else a.
Definition min (a b : float) : float := if b <? a then b else a.

(** [x == floor(x)] and [fmod(fabs(x), 2.0) == 1.0] for a finite [x], read
    off the mantissa and exponent. *)
Definition is_integer (x : float) : bool :=
  match Prim2SF x with
  | S754_zero _ => true
  | S754_finite _ m e =>
      (0 <=? e)%Z || (Z.land (Z.pos m) (Z.ones (- e)) =? 0)%Z
  | _ => false
  end.

Definition is_odd_integer (x : float) : bool :=
  match Prim2SF x with
  | S754_finite _ m e =>
      if (0 <? e)%Z then false
      else (Z.land (Z.pos m) (Z.ones (- e)) =? 0)%Z
           && Z.odd (Z.shiftr (Z.pos m) (- e))
  | _ => false
  end.

Section Pow.

(** The platform's C [pow] on a finite positive base other than 1 and a
    finite non-zero exponent, with CPython's reading of [errno]
    afterwards ([OverflowError] on a range error). *)
Variable libm_pow : float -> float -> outcome float.

(** [v ** w] on floats (CPython's [float_pow]): the exceptional operands
    are settled first, in this order, and the rest goes to the
    platform. *)
Definition pow (v w : float) : outcome float :=
  if w =? 0 then Return 1
  else if is_nan v then Return v
  else if is_nan w then Return (if v =? 1 then 1 else w)
  else if is_infinity w then
    let v := abs v in
    if v =? 1 then Return 1
    else if Bool.eqb (0 <? w) (1 <? v) then Return (abs w)
    else Return 0
  else if is_infinity v then
    let odd := is_odd_integer w in
    if 0 <? w then Return (if odd then v else abs v)
    else Return (if odd then (if v <? 0 then -0 else 0) else 0)
  else if v =? 0 then
    if w <? 0 then Raise ZeroDivisionError
    else Return (if is_odd_integer w then v else 0)
  else if (v <? 0) && negb (is_integer w) then Complex
  else
    let negate_result := (v <? 0) && is_odd_integer w in
    let v := if v <? 0 then - v else v in
    if v =? 1 then Return (if negate_result then -1 else 1)
    else map (fun r => if negate_result then - r else r) (libm_pow v w).

End Pow.

End PyFloat.

Import PyFloat.

(** ** The base vehicle (module [vehicles]) *)

Module Vehicle.

(** Modelled from the spec: the class [Vehicle] of the module [vehicles] is
    imported by carfollow.py but is not among the sources.  The record
    holds the attributes carfollow.py and main.py read or assign on a
    vehicle: the position and speed of the last step ([x_t], [v_t]), the
    current ones ([x], [v]), the acceleration [a], the control input, and
    the optional reference to the vehicle ahead.  Only [x_t] and [v_t] of
    a leader are ever read, so a leader is kept as the vehicle it is. *)
Inductive t : Type := mk {
  x_t : float;
  v_t : float;
  x : float;
  v : float;
  a : float;
  control : float;
  veh_lead : option t
}.

(** [self.a = value] and [self.control = value]. *)
Definition set_a (value : float) (self : t) : t :=
  mk (x_t self) (v_t self) (x self) (v self) value (control self) (veh_lead self).

Definition set_control (value : float) (self : t) : t :=
  mk (x_t self) (v_t self) (x self) (v self) (a self) value (veh_lead self).

(** [set_leader], as main.py calls it after construction. *)
Definition set_leader (lead : t) (self : t) : t :=
  mk (x_t self) (v_t self) (x self) (v self) (a self) (control self) (Some lead).

(** [if self.veh_lead:] -- [None] is false, a vehicle object is true. *)
Definition has_leader (self : t) : bool :=
  match veh_lead self with
  | Some _ => true
  | None => false
  end.

End Vehicle.

(** ** Constants of carfollow.py *)

Definition T_E : float := 0.2.

(* TAMPERE MODEL *)
Definition C_1 : float := 0.5.
Definition C_2 : float := 0.5.
Definition C_3 : float := 0.5.

(* IDM MODEL *)
Definition B : float := 1.5.
Definition DELTA : float := 4.
Definition V_0 : float := 25.

(** ** class CarFollowLaw(Vehicle) *)

Module CarFollowLaw.

Record t : Type := mk {
  veh : Vehicle.t;            (* the inherited Vehicle attributes *)
  behavior : option string
}.

(** A concrete law: a class derived from [CarFollowLaw] that supplies
    [car_following], which [step_evolution] calls on [self]. *)
Class Law (L : Type) : Type := {
  base : L -> t;
  with_base : t -> L -> L;
  car_following : L -> float -> outcome L
}.

Definition with_veh (f : Vehicle.t -> Vehicle.t) (self : t) : t :=
  mk (f (veh self)) (behavior self).

Section Law.

(** The constants carfollow.py imports from [vehicles]: the time step,
    the jam density, the shockwave speed and the free-flow speed. *)
Variables DT K_X W_I U_I : float.

(** [Vehicle.__init__(x0, v0, veh_lead)] and [Vehicle.shift_state()],
    both defined in [vehicles]. *)
Variable Vehicle_init : float -> float -> option Vehicle.t -> Vehicle.t.
Variable shift_state : Vehicle.t -> Vehicle.t.

(** [S_0 = 1 / K_X], evaluated when the module is imported. *)
Definition S_0 : outcome float := truediv 1 K_X.

Definition __init__ (x0 v0 : float) (veh_lead : option Vehicle.t)
    (behavior : option string) : t :=
  mk (Vehicle_init x0 v0 veh_lead) behavior.

(** Free flow speed *)
Definition u (self : t) : float := U_I.

(** Shockwave speed *)
Definition w (self : t) : float := W_I.

(** Jam density *)
Definition k_x (self : t) : float := K_X.

(** Minimum spacing *)
Definition s0 (self : t) : outcome float := truediv 1 (k_x self).

(** Leader speed: [self.veh_lead.v_t] *)
Definition vl (self : t) : outcome float :=
  match Vehicle.veh_lead (veh self) with
  | Some lead => Return (Vehicle.v_t lead)
  | None => Raise (AttributeError "v_t")
  end.

(** Determine current delta of speed *)
Definition dv (self : t) : outcome float :=
  if Vehicle.has_leader (veh self) then
    l <- vl self ;; Return (l - Vehicle.v_t (veh self))
  else Return 0.

(** Leader position: [self.veh_lead.x_t] *)
Definition xl (self : t) : outcome float :=
  match Vehicle.veh_lead (veh self) with
  | Some lead => Return (Vehicle.x_t lead)
  | None => Raise (AttributeError "x_t")
  end.

(** Determine current spacing (X_n-1 - X_n) *)
Definition s (self : t) : outcome float :=
  if Vehicle.has_leader (veh self) then
    l <- xl self ;; Return (l - Vehicle.x_t (veh self))
  else Return 0.

(** Reaction time *)
Definition T (self : t) : float := DT.

(** Use this method to a single step in the simulation *)
Definition step_evolution {L : Type} `{Law L} (self : L) (v_d : float)
    (control : float) : outcome L :=
  let self := with_base (with_veh shift_state (base self)) self in
  let self := with_base (with_veh (Vehicle.set_control control) (base self)) self in
  car_following self v_d.

End Law.

End CarFollowLaw.

(** ** class IDM(CarFollowLaw) *)

Module IDM.

(** [__slots__ = ["_b", "_delta", "_v0"]]: a slot holds a value only once
    it has been assigned. *)
Record t : Type := mk {
  law : CarFollowLaw.t;
  _b : option float;
  _delta : option float;
  _v0 : option float
}.

(** The attributes inherited from [Vehicle]. *)
Definition veh (self : t) : Vehicle.t := CarFollowLaw.veh (law self).

Definition with_law (l : CarFollowLaw.t) (self : t) : t :=
  mk l (_b self) (_delta self) (_v0 self).

Definition set_a (value : float) (self : t) : t :=
  with_law (CarFollowLaw.with_veh (Vehicle.set_a value) (law self)) self.

(** Comfortable decceleration *)
Definition b (self : t) : float := B.

(** [@b.setter] *)
Definition set_b (value : float) (self : t) : t :=
  mk (law self) (Some value) (_delta self) (_v0 self).

(** Acceleration exponent *)
Definition delta (self : t) : outcome float := slot "_delta" (_delta self).

(** [@delta.setter] *)
Definition set_delta (value : float) (self : t) : t :=
  mk (law self) (_b self) (Some value) (_v0 self).

(** Desired speed *)
Definition v0 (self : t) : outcome float := slot "_v0" (_v0 self).

(** [@v0.setter] *)
Definition set_v0 (value : float) (self : t) : t :=
  mk (law self) (_b self) (_delta self) (Some value).

Section IDM.

Variables DT K_X : float.
Variable Vehicle_init : float -> float -> option Vehicle.t -> Vehicle.t.
Variable libm_pow : float -> float -> outcome float.

(** [super().__init__(x0, v0, veh_lead, self.__class__.__name__)]: no
    slot is assigned. *)
Definition __init__ (x0 v0 : float) (veh_lead : option Vehicle.t) : t :=
  mk (CarFollowLaw.__init__ Vehicle_init x0 v0 veh_lead (Some "IDM"%string))
     None None None.

(** Desired spacing *)
Definition s_star (self : t) : outcome float :=
  s0 <- CarFollowLaw.s0 K_X (law self) ;;
  let vT := Vehicle.v (veh self) * CarFollowLaw.T DT (law self) in
  dv <- CarFollowLaw.dv (law self) ;;
  let vdv := Vehicle.v (veh self) * dv in
  r <- math_sqrt (Vehicle.a (veh self) * b self) ;;
  q <- truediv vdv (2 * r) ;;
  Return (s0 + max 0 (vT + q)).

Definition acel (self : t) (vd : float) : outcome float :=
  let a := Vehicle.a (veh self) in
  v0 <- v0 self ;;
  q <- truediv (Vehicle.v (veh self)) v0 ;;
  delta <- delta self ;;
  p <- pow libm_pow q delta ;;
  s_star <- s_star self ;;
  s <- CarFollowLaw.s (law self) ;;
  r <- truediv s_star s ;;
  p2 <- pow libm_pow r 2 ;;
  Return (a * (1 - p - p2)).

(** Acceleration car following *)
Definition car_following (self : t) (vd : float) : outcome t :=
  if Vehicle.has_leader (veh self) then
    r <- acel self vd ;; Return (set_a r self)     (* Car following *)
  else
    Return (set_a (Vehicle.control (veh self)) self). (* Leader vehicle 2nd order *)

(** The instances the constructor can have led to when neither the [delta]
    nor the [v0] setter has been called: the [b] setter and any change of
    the inherited Vehicle attributes (a leader set, a step taken) are
    allowed. *)
Inductive fresh : t -> Prop :=
| fresh_init (x0 v0 : float) (veh_lead : option Vehicle.t) :
    fresh (__init__ x0 v0 veh_lead)
| fresh_set_b (value : float) (self : t) :
    fresh self -> fresh (set_b value self)
| fresh_veh (f : Vehicle.t -> Vehicle.t) (self : t) :
    fresh self -> fresh (with_law (CarFollowLaw.with_veh f (law self)) self).

#[local] Instance Law_IDM : CarFollowLaw.Law t := {|
  CarFollowLaw.base := law;
  CarFollowLaw.with_base := with_law;
  CarFollowLaw.car_following := car_following
|}.

End IDM.

End IDM.

(** ** class Tampere(CarFollowLaw) *)

Module Tampere.

(** [__slots__ = ["_c1", "_c2", "_c3"]]. *)
Record t : Type := mk {
  law : CarFollowLaw.t;
  _c1 : option float;
  _c2 : option float;
  _c3 : option float
}.

(** The attributes inherited from [Vehicle]. *)
Definition veh (self : t) : Vehicle.t := CarFollowLaw.veh (law self).

Definition with_law (l : CarFollowLaw.t) (self : t) : t :=
  mk l (_c1 self) (_c2 self) (_c3 self).

Definition set_a (value : float) (self : t) : t :=
  with_law (CarFollowLaw.with_veh (Vehicle.set_a value) (law self)) self.

(** Speed difference coefficient *)
Definition c1 (self : t) : outcome float := slot "_c1" (_c1 self).

(** Spacing coefficient *)
Definition c2 (self : t) : outcome float := slot "_c2" (_c2 self).

(** Tampere coefficient *)
Definition c3 (self : t) : outcome float := slot "_c3" (_c3 self).

(** [@c1.setter], [@c2.setter], [@c3.setter] *)
Definition set_c1 (value : float) (self : t) : t :=
  mk (law self) (Some value) (_c2 self) (_c3 self).

Definition set_c2 (value : float) (self : t) : t :=
  mk (law self) (_c1 self) (Some value) (_c3 self).

Definition set_c3 (value : float) (self : t) : t :=
  mk (law self) (_c1 self) (_c2 self) (Some value).

(** Set default parameters *)
Definition set_parameters (c1 c2 c3 : float) (self : t) : t :=
  set_c3 c3 (set_c2 c2 (set_c1 c1 self)).

Section Tampere.

Variables K_X W_I : float.
Variable Vehicle_init : float -> float -> option Vehicle.t -> Vehicle.t.

(** [Tampere(x0, v0, veh_lead, c1=C_1, c2=C_2, c3=C_3)]: the base
    constructor, then [set_parameters]. *)
Definition __init__ (x0 v0 : float) (veh_lead : option Vehicle.t)
    (c1 c2 c3 : float) : t :=
  let self :=
    mk (CarFollowLaw.__init__ Vehicle_init x0 v0 veh_lead (Some "Tampere"%string))
       None None None in
  set_parameters c1 c2 c3 self.

(** Determine desired spacing  (d + gamma * v ) *)
Definition s_d (self : t) : outcome float :=
  s0 <- CarFollowLaw.s0 K_X (law self) ;;
  g <- truediv 1 (CarFollowLaw.w W_I (law self) * CarFollowLaw.k_x K_X (law self)) ;;
  Return (s0 + g * Vehicle.v (veh self)).

(** Breaking term  c_1 (D V) + c_2 (s - s_d) *)
Definition cong_acc (self : t) : outcome float :=
  c1 <- c1 self ;;
  dv <- CarFollowLaw.dv (law self) ;;
  let t1 := c1 * dv in
  c2 <- c2 self ;;
  s <- CarFollowLaw.s (law self) ;;
  s_d <- s_d self ;;
  Return (t1 + c2 * (s - s_d)).

(** Acceleration term (Tampere) c_3 (v_d - v) *)
Definition free_acc (self : t) (vd : float) : outcome float :=
  c3 <- c3 self ;;
  Return (c3 * (vd - Vehicle.v_t (veh self))).

(** Acceleration term *)
Definition acel (self : t) (vd : float) : outcome float :=
  c <- cong_acc self ;;
  f <- free_acc self vd ;;
  Return (min c f).

(** Acceleration car following *)
Definition car_following (self : t) (vd : float) : outcome t :=
  if Vehicle.has_leader (veh self) then
    r <- acel self vd ;; Return (set_a r self)     (* Car following *)
  else
    Return (set_a (Vehicle.control (veh self)) self). (* Leader vehicle 2nd order *)

(** The instances the constructor can have led to: the setters and any
    change of the inherited Vehicle attributes are allowed. *)
Inductive constructed : t -> Prop :=
| constructed_init (x0 v0 : float) (veh_lead : option Vehicle.t) (c1 c2 c3 : float) :
    constructed (__init__ x0 v0 veh_lead c1 c2 c3)
| constructed_set_c1 (value : float) (self : t) :
    constructed self -> constructed (set_c1 value self)
| constructed_set_c2 (value : float) (self : t) :
    constructed self -> constructed (set_c2 value self)
| constructed_set_c3 (value : float) (self : t) :
    constructed self -> constructed (set_c3 value self)
| constructed_veh (f : Vehicle.t -> Vehicle.t) (self : t) :
    constructed self -> constructed (with_law (CarFollowLaw.with_veh f (law self)) self).

#[local] Instance Law_Tampere : CarFollowLaw.Law t := {|
  CarFollowLaw.base := law;
  CarFollowLaw.with_base := with_law;
  CarFollowLaw.car_following := car_following
|}.

End Tampere.

End Tampere.


(** ** A concrete platform and two vehicles, for the worked examples *)

Module Example.

(** Values for the constants of [vehicles] (binary fractions, so every
    intermediate result below is exact). *)
Definition DT : float := 0.5.
Definition K_X : float := 0.25.
Definition W_I : float := 4.
Definition U_I : float := 25.

(** An instance of [Vehicle.__init__]: the initial position and speed, no
    acceleration, no control input. *)
Definition Vehicle_init (x0 v0 : float) (veh_lead : option Vehicle.t) : Vehicle.t :=
  Vehicle.mk x0 v0 x0 v0 0 0 veh_lead.

(** An instance of [Vehicle.shift_state]: x_{k-1} = x_k, v_{k-1} = v_k. *)
Definition shift_state (self : Vehicle.t) : Vehicle.t :=
  Vehicle.mk (Vehicle.x self) (Vehicle.v self) (Vehicle.x self) (Vehicle.v self)
    (Vehicle.a self) (Vehicle.control self) (Vehicle.veh_lead self).

(** A platform [pow] that reports a range error on every operand.  The
    examples only raise 1.0 to a power, which [PyFloat.pow] settles without
    calling the platform. *)
Definition libm_pow (v w : float) : outcome float := Raise OverflowError.

(** A leader, and a follower whose last-step position and speed (1.5 and 2)
    differ from its current ones (2.5 and 3); its acceleration is 1.5. *)
Definition leader : Vehicle.t := Vehicle.mk 10 5 12.5 5 0 0 None.

Definition follower : Vehicle.t := Vehicle.mk 1.5 2 2.5 3 1.5 0 (Some leader).

(** The follower as an IDM vehicle with [delta = 4] and [v0 = 3], its own
    speed.  Its desired spacing is
    4 + max(0, 3*0.5 + (3*(5-2))/(2*sqrt(1.5*1.5))) = 8.5, which is its
    spacing 10 - 1.5. *)
Definition idm : IDM.t :=
  IDM.mk (CarFollowLaw.mk follower (Some "IDM"%string)) None (Some 4) (Some 3).

(** The same vehicle after one [car_following]: its acceleration is -1.5. *)
Definition idm' : IDM.t := IDM.set_a (-1.5) idm.

(** The IDM vehicle as the constructor leaves it, then given its leader. *)
Definition idm_fresh : IDM.t :=
  let self := IDM.__init__ Vehicle_init 1.5 2 None in
  IDM.with_law (CarFollowLaw.with_veh (Vehicle.set_leader leader) (IDM.law self)) self.



(** The follower as a Tampere vehicle with the default coefficients. *)
Definition tampere : Tampere.t :=
  let self := Tampere.__init__ Vehicle_init 1.5 2 None C_1 C_2 C_3 in
  Tampere.with_law (CarFollowLaw.with_veh (fun _ => follower) (Tampere.law self)) self.

(** Leaderless vehicles of both laws. *)
Definition idm_head : IDM.t := IDM.__init__ Vehicle_init 10 5 None.

Definition tampere_head : Tampere.t :=
  Tampere.__init__ Vehicle_init 10 5 None C_1 C_2 C_3.


(** The fresh IDM vehicle once both setters have been called. *)
Definition idm_set : IDM.t := IDM.set_delta 4 (IDM.set_v0 3 idm_fresh).

(** The Tampere follower after one [car_following] towards the speed 25. *)
Definition tampere' : Tampere.t := Tampere.set_a 2.25 tampere.

(** An IDM vehicle 4 behind its leader whose acceleration attribute is NaN. *)
Definition idm_nan : IDM.t :=
  IDM.mk (CarFollowLaw.mk (Vehicle.mk 6 2 7 3 nan 0 (Some leader)) (Some "IDM"%string))
    None (Some 4) (Some 3).

End Example.


(** * Properties *)

(** ** Facts about floats *)

Section FloatFacts.

(** Dividing a mantissa by itself at the working precision: the quotient is
    2^53 at exponent -53, with nothing left over. *)
Lemma SFdiv_core_self (m : positive) (e : Z) :
  SFdiv_core_binary prec emax (Z.pos m) e (Z.pos m) e
  = (9007199254740992%Z, (-53)%Z, SpecFloat.loc_Exact).
Proof.
  unfold SFdiv_core_binary.
  replace (Zdigits2 (Z.pos m) + e - (Zdigits2 (Z.pos m) + e))%Z with 0%Z
    by (rewrite Z.sub_diag; reflexivity).
  replace (e - e)%Z with 0%Z by (rewrite Z.sub_diag; reflexivity).
  change (IntDef.Z.min (fexp prec emax 0) 0) with (-53)%Z.
  change (0 - -53)%Z with 53%Z.
  cbv zeta iota.
  change (IntDef.Z.shiftl (Z.pos m) 53) with (Z.shiftl (Z.pos m) 53).
  change IntDef.Z.div_eucl with Z.div_eucl.
  rewrite Z.shiftl_mul_pow2 by discriminate.
  rewrite Z.mul_comm.
  assert (Z.pos m <> 0%Z) as Hm by discriminate.
  pose proof (Z.div_mul (2 ^ 53) (Z.pos m) Hm) as Hq.
  pose proof (Z.mod_mul (2 ^ 53) (Z.pos m) Hm) as Hr.
  unfold Z.div in Hq. unfold Z.modulo in Hr.
  destruct (Z.div_eucl (2 ^ 53 * Z.pos m) (Z.pos m)) as [q r].
  subst q r.
  unfold new_location, new_location_even, new_location_odd.
  destruct (IntDef.Z.even (Z.pos m)); reflexivity.
Qed.

(** A finite non-zero float divided by itself is exactly 1.0. *)
Lemma div_self (x : float) :
  is_finite x = true -> (x =? 0) = false -> x / x = 1.
Proof.
  intros Hfin Hnz.
  apply Prim2SF_inj. rewrite div_spec.
  unfold is_finite, is_nan, is_infinity in Hfin.
  rewrite !FloatAxioms.eqb_spec, abs_spec in Hfin.
  rewrite FloatAxioms.eqb_spec in Hnz.
  destruct (Prim2SF x) as [sg | sg | | sg m e]; try discriminate.
  - destruct sg; discriminate.
  - unfold SF64div, SFdiv. rewrite SFdiv_core_self.
    rewrite xorb_nilpotent. reflexivity.
Qed.

Lemma truediv_zero (x y : float) :
  (y =? 0) = true -> truediv x y = Raise ZeroDivisionError.
Proof. intros Hy. unfold truediv. rewrite Hy. reflexivity. Qed.

Lemma truediv_nonzero (x y : float) :
  (y =? 0) = false -> truediv x y = Return (x / y).
Proof. intros Hy. unfold truediv. rewrite Hy. reflexivity. Qed.

(** [1.0 ** w] is 1.0 whatever [w] is, and whatever the platform's [pow]. *)
Lemma pow_one_base (libm_pow : float -> float -> outcome float) (w : float) :
  pow libm_pow 1 w = Return 1.
Proof.
  unfold pow.
  destruct (w =? 0); [reflexivity|].
  change (is_nan 1) with false. cbv iota.
  destruct (is_nan w); [reflexivity|].
  destruct (is_infinity w); [reflexivity|].
  reflexivity.
Qed.

End FloatFacts.

(** ** The derived quantities of the base law *)

Section BaseLaw.

Import CarFollowLaw.

Lemma has_leader_some (v lead : Vehicle.t) :
  Vehicle.veh_lead v = Some lead -> Vehicle.has_leader v = true.
Proof. intros H. unfold Vehicle.has_leader. rewrite H. reflexivity. Qed.

Lemma has_leader_none (v : Vehicle.t) :
  Vehicle.veh_lead v = None -> Vehicle.has_leader v = false.
Proof. intros H. unfold Vehicle.has_leader. rewrite H. reflexivity. Qed.

Lemma dv_leader (self : t) (lead : Vehicle.t) :
  Vehicle.veh_lead (veh self) = Some lead ->
  dv self = Return (Vehicle.v_t lead - Vehicle.v_t (veh self)).
Proof.
  intros H. unfold dv, vl. rewrite (has_leader_some _ _ H), H. reflexivity.
Qed.

Lemma s_leader (self : t) (lead : Vehicle.t) :
  Vehicle.veh_lead (veh self) = Some lead ->
  s self = Return (Vehicle.x_t lead - Vehicle.x_t (veh self)).
Proof.
  intros H. unfold s, xl. rewrite (has_leader_some _ _ H), H. reflexivity.
Qed.

(** C8: without a leader the relative speed [dv] and the spacing [s] are both
    0; with a leader, [dv] is the leader's speed minus the vehicle's own and
    [s] is the leader's position minus the vehicle's own. *)
Theorem dv_s_by_leader (self : t) :
  (Vehicle.veh_lead (veh self) = None ->
     dv self = Return 0 /\ s self = Return 0)
  /\ (forall lead : Vehicle.t,
        Vehicle.veh_lead (veh self) = Some lead ->
        dv self = Return (Vehicle.v_t lead - Vehicle.v_t (veh self))
        /\ s self = Return (Vehicle.x_t lead - Vehicle.x_t (veh self))).
Proof.
  split.
  - intros H. unfold dv, s. rewrite (has_leader_none _ H). split; reflexivity.
  - intros lead H. split; [apply dv_leader | apply s_leader]; exact H.
Qed.

End BaseLaw.

(** The follower of the examples is 3 slower than its leader and 8.5 behind
    it; the head of the chain has neither a relative speed nor a spacing. *)
Lemma dv_s_by_leader_witness :
  (CarFollowLaw.dv (IDM.law Example.idm) = Return 3
   /\ CarFollowLaw.s (IDM.law Example.idm) = Return 8.5)
  /\ (CarFollowLaw.dv (IDM.law Example.idm_head) = Return 0
      /\ CarFollowLaw.s (IDM.law Example.idm_head) = Return 0).
Proof.
  split.
  - exact (proj2 (dv_s_by_leader (IDM.law Example.idm)) Example.leader eq_refl).
  - exact (proj1 (dv_s_by_leader (IDM.law Example.idm_head)) eq_refl).
Defined.

(** ** The IDM law *)

Ltac py_simpl := cbn [bind Py.map slot].

Section IDMProps.

Variables DT K_X : float.
Variable Vehicle_init : float -> float -> option Vehicle.t -> Vehicle.t.
Variable shift_state : Vehicle.t -> Vehicle.t.
Variable libm_pow : float -> float -> outcome float.

Local Notation s_star := (IDM.s_star DT K_X).
Local Notation acel := (IDM.acel DT K_X libm_pow).
Local Notation car_following := (IDM.car_following DT K_X libm_pow).
Local Notation fresh := (IDM.fresh Vehicle_init).
Local Notation step_evolution :=
  (@CarFollowLaw.step_evolution shift_state _ (IDM.Law_IDM DT K_X libm_pow)).

Lemma math_sqrt_defined (x : float) :
  is_nan (PrimFloat.sqrt x) = false -> math_sqrt x = Return (PrimFloat.sqrt x).
Proof. intros H. unfold math_sqrt. rewrite H. reflexivity. Qed.

(** With a leader, [car_following] stores what [acel] returns in the
    attribute [a], and passes on what it raises. *)
Lemma car_following_leader (self : IDM.t) (vd : float) :
  Vehicle.has_leader (IDM.veh self) = true ->
  car_following self vd = Py.map (fun r => IDM.set_a r self) (acel self vd).
Proof. intros H. unfold IDM.car_following. rewrite H. reflexivity. Qed.

(** *** Unassigned slots *)

Lemma fresh_slots (self : IDM.t) :
  fresh self -> IDM._delta self = None /\ IDM._v0 self = None.
Proof.
  induction 1 as [x0 v0 lead | value self _ IH | f self _ IH].
  - split; reflexivity.
  - exact IH.
  - exact IH.
Qed.

Lemma acel_unset_v0 (self : IDM.t) (vd : float) :
  IDM._v0 self = None -> acel self vd = Raise (AttributeError "_v0").
Proof. intros H. unfold IDM.acel, IDM.v0. rewrite H. reflexivity. Qed.

(** C2: on an IDM instance as the constructor leaves it (neither the [delta]
    nor the [v0] setter called since), [car_following] with a leader present
    raises an attribute error for the slot [_v0] instead of computing an
    acceleration, and so does [step_evolution] when the shifted vehicle
    still has its leader. *)
Theorem fresh_idm_attribute_error (self : IDM.t) (lead : Vehicle.t) (vd : float) :
  fresh self ->
  Vehicle.veh_lead (IDM.veh self) = Some lead ->
  (IDM._delta self = None /\ IDM._v0 self = None)
  /\ car_following self vd = Raise (AttributeError "_v0")
  /\ (forall control : float,
        Vehicle.has_leader (shift_state (IDM.veh self)) = true ->
        step_evolution self vd control = Raise (AttributeError "_v0")).
Proof.
  intros Hfresh Hlead.
  destruct (fresh_slots self Hfresh) as [Hdelta Hv0].
  split; [split; assumption|]. split.
  - rewrite car_following_leader by (eapply has_leader_some; exact Hlead).
    rewrite (acel_unset_v0 _ _ Hv0). reflexivity.
  - intros control Hshift.
    unfold CarFollowLaw.step_evolution.
    cbn [CarFollowLaw.base CarFollowLaw.with_base CarFollowLaw.car_following
         IDM.Law_IDM].
    rewrite car_following_leader by exact Hshift.
    rewrite acel_unset_v0 by exact Hv0. reflexivity.
Qed.

(** *** The desired spacing *)

Lemma s_star_leader (self : IDM.t) (lead : Vehicle.t) :
  Vehicle.veh_lead (IDM.veh self) = Some lead ->
  (K_X =? 0) = false ->
  is_nan (PrimFloat.sqrt (Vehicle.a (IDM.veh self) * IDM.b self)) = false ->
  (2 * PrimFloat.sqrt (Vehicle.a (IDM.veh self) * IDM.b self) =? 0) = false ->
  s_star self =
  Return (1 / K_X
          + max 0 (Vehicle.v (IDM.veh self) * DT
                   + (Vehicle.v (IDM.veh self)
                      * (Vehicle.v_t lead - Vehicle.v_t (IDM.veh self)))
                     / (2 * PrimFloat.sqrt (Vehicle.a (IDM.veh self) * IDM.b self)))).
Proof.
  intros Hlead HK Hsqrt Hden.
  unfold IDM.s_star, CarFollowLaw.s0, CarFollowLaw.k_x, CarFollowLaw.T.
  rewrite (truediv_nonzero _ _ HK). py_simpl.
  rewrite (dv_leader (IDM.law self) lead Hlead). py_simpl.
  rewrite (math_sqrt_defined _ Hsqrt). py_simpl.
  rewrite (truediv_nonzero _ _ Hden). reflexivity.
Qed.

(** C4: with a leader, [s_star()] is
    [s0 + max(0, v*T + (v*dv) / (2*sqrt(a*b)))], where [s0 = 1/k_x] is the
    minimum spacing, [dv] the relative speed, [b] the comfortable
    deceleration and [a] the vehicle's acceleration attribute -- the one
    [car_following] assigns, hence the acceleration of the previous step. *)
Theorem idm_s_star_formula (self : IDM.t) (lead : Vehicle.t) :
  Vehicle.veh_lead (IDM.veh self) = Some lead ->
  (K_X =? 0) = false ->
  is_nan (PrimFloat.sqrt (Vehicle.a (IDM.veh self) * IDM.b self)) = false ->
  (2 * PrimFloat.sqrt (Vehicle.a (IDM.veh self) * IDM.b self) =? 0) = false ->
  s_star self =
  Return (1 / K_X
          + max 0 (Vehicle.v (IDM.veh self) * DT
                   + (Vehicle.v (IDM.veh self)
                      * (Vehicle.v_t lead - Vehicle.v_t (IDM.veh self)))
                     / (2 * PrimFloat.sqrt (Vehicle.a (IDM.veh self) * IDM.b self))))
  /\ (forall vd r : float,
        acel self vd = Return r ->
        car_following self vd = Return (IDM.set_a r self)
        /\ Vehicle.a (IDM.veh (IDM.set_a r self)) = r).
Proof.
  intros Hlead HK Hsqrt Hden. split.
  - apply s_star_leader; assumption.
  - intros vd r Hr. split; [|reflexivity].
    rewrite car_following_leader by (eapply has_leader_some; exact Hlead).
    rewrite Hr. reflexivity.
Qed.

(** *** The acceleration *)

(** How [acel] evaluates when every sub-expression returns: the quotient
    [v / v0], its power, the desired spacing, the quotient by the spacing and
    its square, in this order. *)
Lemma acel_leader (self : IDM.t) (lead : Vehicle.t) (vd v0 delta p d p2 : float) :
  Vehicle.veh_lead (IDM.veh self) = Some lead ->
  IDM._v0 self = Some v0 ->
  (v0 =? 0) = false ->
  IDM._delta self = Some delta ->
  pow libm_pow (Vehicle.v (IDM.veh self) / v0) delta = Return p ->
  s_star self = Return d ->
  (Vehicle.x_t lead - Vehicle.x_t (IDM.veh self) =? 0) = false ->
  pow libm_pow (d / (Vehicle.x_t lead - Vehicle.x_t (IDM.veh self))) 2 = Return p2 ->
  acel self vd = Return (Vehicle.a (IDM.veh self) * (1 - p - p2)).
Proof.
  intros Hlead Hv0 Hnz Hdelta Hp Hd Hs Hp2.
  unfold IDM.acel, IDM.v0, IDM.delta.
  rewrite Hv0. py_simpl.
  rewrite (truediv_nonzero _ _ Hnz). py_simpl.
  rewrite Hdelta. py_simpl.
  rewrite Hp. py_simpl.
  rewrite Hd. py_simpl.
  rewrite (s_leader (IDM.law self) lead Hlead). py_simpl.
  rewrite (truediv_nonzero _ _ Hs). py_simpl.
  rewrite Hp2. reflexivity.
Qed.

(** C3 (as amended): with a leader, and when the sub-expressions return, the
    acceleration is [a * (1 - (v/v0)**delta - (s_star()/s)**2)], where [a]
    is the vehicle's acceleration attribute; [car_following] then assigns
    the result to that same attribute, so the factor of the next call is the
    acceleration this call computed. *)
Theorem idm_acel_formula (self : IDM.t) (lead : Vehicle.t)
    (vd v0 delta p d p2 : float) :
  Vehicle.veh_lead (IDM.veh self) = Some lead ->
  IDM._v0 self = Some v0 ->
  (v0 =? 0) = false ->
  IDM._delta self = Some delta ->
  pow libm_pow (Vehicle.v (IDM.veh self) / v0) delta = Return p ->
  s_star self = Return d ->
  (Vehicle.x_t lead - Vehicle.x_t (IDM.veh self) =? 0) = false ->
  pow libm_pow (d / (Vehicle.x_t lead - Vehicle.x_t (IDM.veh self))) 2 = Return p2 ->
  let r := Vehicle.a (IDM.veh self) * (1 - p - p2) in
  acel self vd = Return r
  /\ car_following self vd = Return (IDM.set_a r self)
  /\ Vehicle.a (IDM.veh (IDM.set_a r self)) = r.
Proof.
  intros Hlead Hv0 Hnz Hdelta Hp Hd Hs Hp2 r.
  assert (acel self vd = Return r) as Hr
    by (eapply acel_leader; eassumption).
  split; [exact Hr|]. split; [|reflexivity].
  rewrite car_following_leader by (eapply has_leader_some; exact Hlead).
  rewrite Hr. reflexivity.
Qed.

(** C5 (as amended): with a leader, the desired speed [v0] equal to the
    vehicle's own speed and the spacing equal to the desired spacing
    [s_star()] (both finite and not zero, [delta] assigned), the two
    quotients are 1.0, so are their powers, and the acceleration is
    [a * (1 - 1 - 1)], that is [a * (-1.0)]: the acceleration attribute with
    its sign changed, not 0. *)
Theorem idm_acel_at_desired_speed_and_spacing (self : IDM.t) (lead : Vehicle.t)
    (vd delta d : float) :
  Vehicle.veh_lead (IDM.veh self) = Some lead ->
  IDM._v0 self = Some (Vehicle.v (IDM.veh self)) ->
  is_finite (Vehicle.v (IDM.veh self)) = true ->
  (Vehicle.v (IDM.veh self) =? 0) = false ->
  IDM._delta self = Some delta ->
  s_star self = Return d ->
  CarFollowLaw.s (IDM.law self) = Return d ->
  is_finite d = true ->
  (d =? 0) = false ->
  acel self vd = Return (Vehicle.a (IDM.veh self) * (-1)).
Proof.
  intros Hlead Hv0 Hfin Hnz Hdelta Hd Hs Hdfin Hdnz.
  rewrite (s_leader (IDM.law self) lead Hlead) in Hs.
  injection Hs as Hs.
  change (CarFollowLaw.veh (IDM.law self)) with (IDM.veh self) in Hs.
  rewrite (acel_leader self lead vd (Vehicle.v (IDM.veh self)) delta 1 d 1
             Hlead Hv0 Hnz Hdelta).
  - reflexivity.
  - rewrite (div_self _ Hfin Hnz). apply pow_one_base.
  - exact Hd.
  - rewrite Hs. exact Hdnz.
  - rewrite Hs, (div_self _ Hdfin Hdnz). apply pow_one_base.
Qed.

(** *** The setter of [b] and the argument [vd] *)

(** C9: the property [b] is the module constant [B = 1.5] whatever has been
    assigned through its setter, and the assignment changes no later
    computation: [s_star], [acel] and [car_following] give on the instance
    with [_b] assigned what they give without. *)
Theorem idm_b_is_constant (self : IDM.t) (value vd : float) :
  IDM.b self = 1.5
  /\ IDM.b (IDM.set_b value self) = 1.5
  /\ IDM._b (IDM.set_b value self) = Some value
  /\ s_star (IDM.set_b value self) = s_star self
  /\ acel (IDM.set_b value self) vd = acel self vd
  /\ car_following (IDM.set_b value self) vd
     = Py.map (IDM.set_b value) (car_following self vd).
Proof.
  repeat split.
  unfold IDM.car_following.
  change (IDM.veh (IDM.set_b value self)) with (IDM.veh self).
  change (acel (IDM.set_b value self) vd) with (acel self vd).
  destruct (Vehicle.has_leader (IDM.veh self)); [|reflexivity].
  destruct (acel self vd); reflexivity.
Qed.

(** C10: [acel] and [car_following] do not depend on their argument [vd]:
    two desired speeds give the same result, or the same failure. *)
Theorem idm_vd_is_unused (self : IDM.t) (vd1 vd2 : float) :
  acel self vd1 = acel self vd2
  /\ car_following self vd1 = car_following self vd2.
Proof.
  assert (acel self vd1 = acel self vd2) as H by reflexivity.
  split; [exact H|].
  unfold IDM.car_following. rewrite H. reflexivity.
Qed.

End IDMProps.

(** ** The Tampere law *)

Section TampereProps.

Variables K_X W_I : float.
Variable Vehicle_init : float -> float -> option Vehicle.t -> Vehicle.t.

Local Notation s_d := (Tampere.s_d K_X W_I).
Local Notation cong_acc := (Tampere.cong_acc K_X W_I).
Local Notation acel := (Tampere.acel K_X W_I).
Local Notation constructed := (Tampere.constructed Vehicle_init).

(** The constructor assigns the three coefficients, and nothing unassigns
    them afterwards. *)
Lemma constructed_slots (self : Tampere.t) :
  constructed self ->
  exists c1 c2 c3 : float,
    Tampere._c1 self = Some c1 /\ Tampere._c2 self = Some c2
    /\ Tampere._c3 self = Some c3.
Proof.
  induction 1 as [x0 v0 lead c1 c2 c3
                 | value self _ (c1 & c2 & c3 & H1 & H2 & H3)
                 | value self _ (c1 & c2 & c3 & H1 & H2 & H3)
                 | value self _ (c1 & c2 & c3 & H1 & H2 & H3)
                 | f self _ IH].
  - exists c1, c2, c3. repeat split.
  - exists value, c2, c3. repeat split; assumption.
  - exists c1, value, c3. repeat split; assumption.
  - exists c1, c2, value. repeat split; assumption.
  - exact IH.
Qed.

Lemma s_d_defined (self : Tampere.t) :
  (K_X =? 0) = false ->
  (W_I * K_X =? 0) = false ->
  s_d self = Return (1 / K_X + 1 / (W_I * K_X) * Vehicle.v (Tampere.veh self)).
Proof.
  intros HK HWK.
  unfold Tampere.s_d, CarFollowLaw.s0, CarFollowLaw.w, CarFollowLaw.k_x.
  rewrite (truediv_nonzero _ _ HK). py_simpl.
  rewrite (truediv_nonzero _ _ HWK). reflexivity.
Qed.

(** The desired spacing cannot be evaluated when the product of the shockwave
    speed and the jam density is zero: one of its two divisions raises. *)
Lemma s_d_zero_product (self : Tampere.t) :
  (W_I * K_X =? 0) = true -> s_d self = Raise ZeroDivisionError.
Proof.
  intros HWK.
  unfold Tampere.s_d, CarFollowLaw.s0, CarFollowLaw.w, CarFollowLaw.k_x.
  unfold truediv at 1.
  destruct (K_X =? 0); [reflexivity|]. py_simpl.
  rewrite (truediv_zero _ _ HWK). reflexivity.
Qed.


(** C1: on every Tampere instance with a leader, whatever its coefficients
    [c1], [c2], [c3], speeds and positions, [acel(vd)] is
    [min(c1*dv + c2*(s - s_d), c3*(vd - v_t))] with [dv] the relative speed,
    [s] the spacing and [s_d = s0 + (1/(w*k_x)) * v] the desired spacing,
    [s0 = 1/k_x] being the minimum spacing.  The vehicle's own speed is read
    as the attribute [v] in [s_d] and as [v_t] in the free-flow term. *)
Theorem tampere_acel_is_min (self : Tampere.t) (lead : Vehicle.t) (vd : float) :
  constructed self ->
  Vehicle.veh_lead (Tampere.veh self) = Some lead ->
  (K_X =? 0) = false ->
  (W_I * K_X =? 0) = false ->
  let dv := Vehicle.v_t lead - Vehicle.v_t (Tampere.veh self) in
  let s := Vehicle.x_t lead - Vehicle.x_t (Tampere.veh self) in
  let s_d := 1 / K_X + 1 / (W_I * K_X) * Vehicle.v (Tampere.veh self) in
  exists c1 c2 c3 : float,
    (Tampere.c1 self = Return c1 /\ Tampere.c2 self = Return c2
     /\ Tampere.c3 self = Return c3)
    /\ acel self vd =
       Return (min (c1 * dv + c2 * (s - s_d))
                   (c3 * (vd - Vehicle.v_t (Tampere.veh self))))
    /\ cong_acc self = Return (c1 * dv + c2 * (s - s_d))
    /\ Tampere.free_acc self vd = Return (c3 * (vd - Vehicle.v_t (Tampere.veh self))).
Proof.
  intros Hc Hlead HK HWK dv s s_d.
  destruct (constructed_slots self Hc) as (c1 & c2 & c3 & H1 & H2 & H3).
  exists c1, c2, c3.
  assert (cong_acc self = Return (c1 * dv + c2 * (s - s_d))) as Hcong.
  { unfold Tampere.cong_acc, Tampere.c1, Tampere.c2.
    rewrite H1. py_simpl.
    rewrite (dv_leader (Tampere.law self) lead Hlead). py_simpl.
    rewrite H2. py_simpl.
    rewrite (s_leader (Tampere.law self) lead Hlead). py_simpl.
    rewrite (s_d_defined self HK HWK). reflexivity. }
  assert (Tampere.free_acc self vd
          = Return (c3 * (vd - Vehicle.v_t (Tampere.veh self)))) as Hfree.
  { unfold Tampere.free_acc, Tampere.c3. rewrite H3. reflexivity. }
  split.
  - unfold Tampere.c1, Tampere.c2, Tampere.c3. rewrite H1, H2, H3.
    repeat split.
  - split; [|split; assumption].
    unfold Tampere.acel. rewrite Hcong. py_simpl. rewrite Hfree. reflexivity.
Qed.

End TampereProps.

(** ** Both laws *)

Section BothLaws.

Variables DT K_X W_I : float.
Variable Vehicle_init : float -> float -> option Vehicle.t -> Vehicle.t.
Variable shift_state : Vehicle.t -> Vehicle.t.
Variable libm_pow : float -> float -> outcome float.

Local Notation idm_acel := (IDM.acel DT K_X libm_pow).
Local Notation idm_step :=
  (@CarFollowLaw.step_evolution shift_state _ (IDM.Law_IDM DT K_X libm_pow)).
Local Notation tampere_acel := (Tampere.acel K_X W_I).
Local Notation tampere_step :=
  (@CarFollowLaw.step_evolution shift_state _ (Tampere.Law_Tampere K_X W_I)).

(** *** A vehicle without a leader *)

(** C6: on a vehicle of either law that has no leader, [step_evolution(v_d,
    control)] returns with the acceleration attribute equal to [control],
    whatever [v_d] is.  ([shift_state] is the base class's; all that is asked
    of it is that it gives no leader to a vehicle that has none.) *)
Theorem leaderless_step_takes_control :
  (forall v : Vehicle.t,
      Vehicle.veh_lead v = None -> Vehicle.veh_lead (shift_state v) = None) ->
  (forall (self : IDM.t) (v_d control : float),
      Vehicle.veh_lead (IDM.veh self) = None ->
      exists self' : IDM.t,
        idm_step self v_d control = Return self'
        /\ Vehicle.a (IDM.veh self') = control)
  /\ (forall (self : Tampere.t) (v_d control : float),
        Vehicle.veh_lead (Tampere.veh self) = None ->
        exists self' : Tampere.t,
          tampere_step self v_d control = Return self'
          /\ Vehicle.a (Tampere.veh self') = control).
Proof.
  intros Hshift. split.
  - intros self v_d control Hnone.
    unfold CarFollowLaw.step_evolution.
    cbn [CarFollowLaw.base CarFollowLaw.with_base CarFollowLaw.car_following
         IDM.Law_IDM].
    unfold IDM.car_following.
    match goal with
    | |- context [Vehicle.has_leader ?v] =>
        replace (Vehicle.has_leader v) with false
          by (symmetry; apply has_leader_none; apply Hshift; exact Hnone)
    end.
    eexists. split; reflexivity.
  - intros self v_d control Hnone.
    unfold CarFollowLaw.step_evolution.
    cbn [CarFollowLaw.base CarFollowLaw.with_base CarFollowLaw.car_following
         Tampere.Law_Tampere].
    unfold Tampere.car_following.
    match goal with
    | |- context [Vehicle.has_leader ?v] =>
        replace (Vehicle.has_leader v) with false
          by (symmetry; apply has_leader_none; apply Hshift; exact Hnone)
    end.
    eexists. split; reflexivity.
Qed.

(** *** Division by zero *)




End BothLaws.

(** ** Worked examples *)

(** The Tampere follower of the examples: the congested term is
    0.5*3 + 0.5*(8.5 - (4 + 1*3)) = 2.25, the free-flow term
    0.5*(25 - 2) = 11.5, and the acceleration their minimum. *)
Lemma tampere_acel_is_min_witness :
  Tampere.acel Example.K_X Example.W_I Example.tampere 25 = Return 2.25
  /\ Tampere.cong_acc Example.K_X Example.W_I Example.tampere = Return 2.25
  /\ Tampere.free_acc Example.tampere 25 = Return 11.5.
Proof.
  destruct (tampere_acel_is_min Example.K_X Example.W_I Example.Vehicle_init
              Example.tampere Example.leader 25
              (Tampere.constructed_veh _ (fun _ => Example.follower) _
                 (Tampere.constructed_init _ 1.5 2 None C_1 C_2 C_3))
              eq_refl eq_refl eq_refl)
    as (c1 & c2 & c3 & (H1 & H2 & H3) & Hacel & Hcong & Hfree).
  injection H1 as <-. injection H2 as <-. injection H3 as <-.
  exact (conj Hacel (conj Hcong Hfree)).
Defined.

(** An IDM vehicle straight from the constructor, then given a leader:
    [car_following] and [step_evolution] raise the attribute error. *)
Lemma fresh_idm_attribute_error_witness :
  IDM.car_following Example.DT Example.K_X Example.libm_pow Example.idm_fresh 25
  = Raise (AttributeError "_v0")
  /\ @CarFollowLaw.step_evolution Example.shift_state _
       (IDM.Law_IDM Example.DT Example.K_X Example.libm_pow) Example.idm_fresh 25 0
     = Raise (AttributeError "_v0").
Proof.
  pose proof (fresh_idm_attribute_error Example.DT Example.K_X Example.Vehicle_init
                Example.shift_state Example.libm_pow Example.idm_fresh Example.leader 25
                (IDM.fresh_veh _ (Vehicle.set_leader Example.leader) _
                   (IDM.fresh_init _ 1.5 2 None))
                eq_refl) as H.
  split.
  - exact (proj1 (proj2 H)).
  - exact (proj2 (proj2 H) 0 eq_refl).
Defined.

(** The IDM follower of the examples: both quotients are 1.0, the
    acceleration is 1.5 * (1 - 1 - 1), and [car_following] stores it. *)
Lemma idm_acel_formula_witness :
  IDM.acel Example.DT Example.K_X Example.libm_pow Example.idm 25 = Return (-1.5)
  /\ IDM.car_following Example.DT Example.K_X Example.libm_pow Example.idm 25
     = Return Example.idm'
  /\ Vehicle.a (IDM.veh Example.idm') = -1.5.
Proof.
  exact (idm_acel_formula Example.DT Example.K_X Example.libm_pow Example.idm
           Example.leader 25 3 4 1 8.5 1
           eq_refl eq_refl eq_refl eq_refl eq_refl eq_refl eq_refl eq_refl).
Defined.

(** C3, the claim as stated: the factor of the formula is not a fixed
    parameter of the vehicle.  On the follower of the examples it is 1.5;
    [car_following] returns with the computed acceleration -1.5 in its
    place, and a second evaluation on the otherwise unchanged vehicle takes
    the square root of -1.5 * 1.5 and raises. *)
Lemma idm_factor_is_overwritten :
  Vehicle.a (IDM.veh Example.idm) = 1.5
  /\ IDM.acel Example.DT Example.K_X Example.libm_pow Example.idm 25 = Return (-1.5)
  /\ IDM.car_following Example.DT Example.K_X Example.libm_pow Example.idm 25
     = Return Example.idm'
  /\ Vehicle.a (IDM.veh Example.idm') = -1.5
  /\ (Vehicle.a (IDM.veh Example.idm') =? Vehicle.a (IDM.veh Example.idm)) = false
  /\ IDM.acel Example.DT Example.K_X Example.libm_pow Example.idm' 25
     = Raise ValueError.
Proof. repeat split. Qed.

(** The desired spacing of the IDM follower of the examples. *)
Lemma idm_s_star_formula_witness :
  IDM.s_star Example.DT Example.K_X Example.idm = Return 8.5.
Proof.
  exact (proj1 (idm_s_star_formula Example.DT Example.K_X Example.libm_pow
                  Example.idm Example.leader eq_refl eq_refl eq_refl eq_refl)).
Defined.

(** The IDM follower of the examples has [v0] equal to its speed and its
    spacing equal to its desired spacing. *)
Lemma idm_acel_at_desired_speed_and_spacing_witness :
  IDM.acel Example.DT Example.K_X Example.libm_pow Example.idm 25
  = Return (1.5 * (-1)).
Proof.
  exact (idm_acel_at_desired_speed_and_spacing Example.DT Example.K_X
           Example.libm_pow Example.idm Example.leader 25 4 8.5
           eq_refl eq_refl eq_refl eq_refl eq_refl eq_refl eq_refl eq_refl eq_refl).
Defined.

(** C5, the claim as stated: on the follower of the examples the desired
    speed is the vehicle's speed and the spacing is the desired spacing, and
    the acceleration is -1.5, which is not 0. *)
Lemma idm_acel_not_zero_at_desired_speed_and_spacing :
  IDM.v0 Example.idm = Return (Vehicle.v (IDM.veh Example.idm))
  /\ IDM.s_star Example.DT Example.K_X Example.idm = Return 8.5
  /\ CarFollowLaw.s (IDM.law Example.idm) = Return 8.5
  /\ IDM.acel Example.DT Example.K_X Example.libm_pow Example.idm 25 = Return (-1.5)
  /\ (-1.5 =? 0) = false.
Proof. repeat split. Qed.

(** The heads of the chain of the examples take the control input 0.75 as
    their acceleration. *)
Lemma leaderless_step_takes_control_witness :
  (exists self' : IDM.t,
      @CarFollowLaw.step_evolution Example.shift_state _
        (IDM.Law_IDM Example.DT Example.K_X Example.libm_pow)
        Example.idm_head 25 0.75 = Return self'
      /\ Vehicle.a (IDM.veh self') = 0.75)
  /\ (exists self' : Tampere.t,
        @CarFollowLaw.step_evolution Example.shift_state _
          (Tampere.Law_Tampere Example.K_X Example.W_I)
          Example.tampere_head 25 0.75 = Return self'
        /\ Vehicle.a (Tampere.veh self') = 0.75).
Proof.
  pose proof (leaderless_step_takes_control Example.DT Example.K_X Example.W_I
                Example.shift_state Example.libm_pow (fun v H => H)) as H.
  split.
  - exact (proj1 H Example.idm_head 25 0.75 eq_refl).
  - exact (proj2 H Example.tampere_head 25 0.75 eq_refl).
Defined.




(** * Further properties of the two laws *)

(** ** Order and zeros of floats *)

Section FloatOrder.

Lemma SFcompare_antisym (x y : spec_float) :
  SFcompare y x = option_map CompOpp (SFcompare x y).
Proof.
  destruct x as [sx | sx | | sx mx ex], y as [sy | sy | | sy my ey];
    try reflexivity;
    try (destruct sx; reflexivity);
    try (destruct sy; reflexivity);
    try (destruct sx, sy; reflexivity).
  cbn [SFcompare option_map].
  change PosDef.Pos.compare_cont with Pos.compare_cont.
  rewrite (Z.compare_antisym ex ey).
  rewrite (ZC4 my mx).
  destruct sx, sy; try reflexivity;
    destruct (ex ?= ey)%Z; cbn [CompOpp]; try reflexivity;
    destruct (Pos.compare_cont Eq mx my); reflexivity.
Qed.

Lemma ltb_asym (x y : float) : (x <? y) = true -> (y <? x) = false.
Proof.
  rewrite !ltb_spec. unfold SFltb.
  rewrite (SFcompare_antisym (Prim2SF x) (Prim2SF y)).
  destruct (SFcompare (Prim2SF x) (Prim2SF y)) as [[| |]|]; try discriminate.
  reflexivity.
Qed.

Lemma ltb_irrefl (x : float) : (x <? x) = false.
Proof.
  destruct (x <? x) eqn:E; [|reflexivity].
  pose proof (ltb_asym x x E) as H. rewrite E in H. discriminate.
Qed.

(** A float equal to zero is one of the two zeros. *)
Lemma eqb_zero_cases (x : float) : (x =? 0) = true -> x = 0 \/ x = -0.
Proof.
  rewrite FloatAxioms.eqb_spec. intros H.
  rewrite <- (SF2Prim_Prim2SF x).
  destruct (Prim2SF x) as [s | s | | s m e]; try (destruct s; discriminate);
    try discriminate.
  destruct s; [right | left]; reflexivity.
Qed.

(** The sign of a zero does not matter in a comparison. *)
Lemma ltb_zero_l (z y : float) : (z =? 0) = true -> (z <? y) = (0 <? y).
Proof.
  intros Hz. destruct (eqb_zero_cases z Hz) as [-> | ->]; [reflexivity|].
  rewrite !ltb_spec. reflexivity.
Qed.

Lemma ltb_zero_r (z y : float) : (z =? 0) = true -> (y <? z) = (y <? 0).
Proof.
  intros Hz. destruct (eqb_zero_cases z Hz) as [-> | ->]; [reflexivity|].
  rewrite !ltb_spec.
  destruct (Prim2SF y) as [s | s | | s m e]; reflexivity.
Qed.

(** The square root of a negative float is NaN. *)
Lemma sqrt_negative (x : float) :
  (x <? 0) = true -> is_nan (PrimFloat.sqrt x) = true /\ is_nan x = false.
Proof.
  unfold is_nan. rewrite ltb_spec, !FloatAxioms.eqb_spec, sqrt_spec.
  destruct (Prim2SF x) as [s | s | | s m e]; try discriminate;
    destruct s; try discriminate; intros _.
  - split; reflexivity.
  - split; [reflexivity|].
    unfold SFeqb, SFcompare. rewrite Z.compare_refl.
    change PosDef.Pos.compare_cont with Pos.compare_cont.
    rewrite Pos.compare_cont_refl. reflexivity.
Qed.

Lemma math_sqrt_negative (x : float) :
  (x <? 0) = true -> math_sqrt x = Raise ValueError.
Proof.
  intros H. destruct (sqrt_negative x H) as [H1 H2].
  unfold math_sqrt. rewrite H1, H2. reflexivity.
Qed.

(** A finite float minus itself is +0.0, and a finite float times a zero is
    a zero. *)
Lemma sub_self (x : float) : is_finite x = true -> x - x = 0.
Proof.
  intros Hfin. apply Prim2SF_inj. rewrite sub_spec.
  unfold is_finite, is_nan, is_infinity in Hfin.
  rewrite !FloatAxioms.eqb_spec, abs_spec in Hfin.
  destruct (Prim2SF x) as [s | s | | s m e]; try discriminate.
  - destruct s; reflexivity.
  - destruct s; discriminate.
  - unfold SF64sub, SFsub, shl_align.
    change (IntDef.Z.min e e) with (Z.min e e).
    rewrite Z.min_id, !Z.sub_diag. reflexivity.
Qed.

Lemma mul_zero_r (c z : float) :
  is_finite c = true -> (z =? 0) = true -> (c * z =? 0) = true.
Proof.
  intros Hfin Hz.
  unfold is_finite, is_nan, is_infinity in Hfin.
  rewrite !FloatAxioms.eqb_spec, abs_spec in Hfin.
  rewrite FloatAxioms.eqb_spec in *. rewrite mul_spec.
  destruct (Prim2SF z) as [sz | sz | | sz mz ez]; try discriminate;
    try (destruct sz; discriminate).
  destruct (Prim2SF c) as [s | s | | s m e]; try discriminate;
    try (destruct s; discriminate); reflexivity.
Qed.

End FloatOrder.

(** ** The guard on the leader *)

Section LeaderGuard.

Import CarFollowLaw.

Lemma dv_returns (self : t) : exists r : float, dv self = Return r.
Proof.
  unfold dv, vl, Vehicle.has_leader.
  destruct (Vehicle.veh_lead (veh self)); eexists; reflexivity.
Qed.

Lemma s_returns (self : t) : exists r : float, s self = Return r.
Proof.
  unfold s, xl, Vehicle.has_leader.
  destruct (Vehicle.veh_lead (veh self)); eexists; reflexivity.
Qed.

(** X1: the leader's speed [vl] and position [xl] cannot be read on a vehicle
    without a leader (the attribute lookup on [None] raises), but [dv] and
    [s] test the leader first and therefore never raise, on any vehicle. *)
Theorem dv_s_never_raise (self : t) :
  (exists r : float, dv self = Return r)
  /\ (exists r : float, s self = Return r)
  /\ (Vehicle.veh_lead (veh self) = None ->
      vl self = Raise (AttributeError "v_t")
      /\ xl self = Raise (AttributeError "x_t")).
Proof.
  split; [apply dv_returns|]. split; [apply s_returns|].
  intros H. unfold vl, xl. rewrite H. split; reflexivity.
Qed.

End LeaderGuard.

(** ** Where the IDM law cannot be evaluated *)

Section IDMDomain.

Variables DT K_X : float.
Variable libm_pow : float -> float -> outcome float.

Local Notation s_star := (IDM.s_star DT K_X).
Local Notation acel := (IDM.acel DT K_X libm_pow).
Local Notation car_following := (IDM.car_following DT K_X libm_pow).

(** [acel] returns only if [s_star()] does, and [car_following] with a
    leader only if [acel] does. *)
Lemma acel_returns_s_star (self : IDM.t) (vd r : float) :
  acel self vd = Return r -> exists d : float, s_star self = Return d.
Proof.
  unfold IDM.acel.
  destruct (IDM.v0 self) as [v0 | e |]; py_simpl; try discriminate.
  destruct (truediv (Vehicle.v (IDM.veh self)) v0) as [q | e |]; py_simpl;
    try discriminate.
  destruct (IDM.delta self) as [delta | e |]; py_simpl; try discriminate.
  destruct (pow libm_pow q delta) as [p | e |]; py_simpl; try discriminate.
  destruct (s_star self) as [d | e |]; py_simpl; try discriminate.
  intros _. exists d. reflexivity.
Qed.

Lemma car_following_returns_acel (self self' : IDM.t) (vd : float) :
  Vehicle.has_leader (IDM.veh self) = true ->
  car_following self vd = Return self' ->
  exists r : float, acel self vd = Return r /\ self' = IDM.set_a r self.
Proof.
  intros Hlead. unfold IDM.car_following. rewrite Hlead.
  destruct (acel self vd) as [r | e |]; py_simpl; try discriminate.
  intros H. injection H as <-. exists r. split; reflexivity.
Qed.


(** With a negative product [a * b] the square root inside [s_star()] has no
    value. *)
Lemma s_star_negative_product (self : IDM.t) :
  (Vehicle.a (IDM.veh self) * IDM.b self <? 0) = true ->
  s_star self
  = (_ <- CarFollowLaw.s0 K_X (IDM.law self) ;; Raise ValueError).
Proof.
  intros Ha. unfold IDM.s_star.
  destruct (CarFollowLaw.s0 K_X (IDM.law self)) as [s0 | e |]; py_simpl;
    try reflexivity.
  destruct (dv_returns (IDM.law self)) as [dv Hdv]. rewrite Hdv. py_simpl.
  rewrite (math_sqrt_negative _ Ha). reflexivity.
Qed.

Lemma s0_nonzero (l : CarFollowLaw.t) :
  (K_X =? 0) = false -> CarFollowLaw.s0 K_X l = Return (1 / K_X).
Proof.
  intros HK. unfold CarFollowLaw.s0, CarFollowLaw.k_x.
  apply truediv_nonzero. exact HK.
Qed.


Lemma s_star_negative_never (self : IDM.t) (d : float) :
  (Vehicle.a (IDM.veh self) * IDM.b self <? 0) = true -> s_star self <> Return d.
Proof.
  intros Ha. rewrite (s_star_negative_product self Ha).
  destruct (CarFollowLaw.s0 K_X (IDM.law self)); discriminate.
Qed.

Lemma acel_never_without_s_star (self : IDM.t) :
  (forall d : float, s_star self <> Return d) ->
  forall vd r : float, acel self vd <> Return r.
Proof.
  intros Hs vd r Hr. destruct (acel_returns_s_star self vd r Hr) as [d Hd].
  exact (Hs d Hd).
Qed.

Lemma car_following_never_without_s_star (self : IDM.t) :
  (forall d : float, s_star self <> Return d) ->
  Vehicle.has_leader (IDM.veh self) = true ->
  forall (vd : float) (self' : IDM.t), car_following self vd <> Return self'.
Proof.
  intros Hs Hlead vd self' H.
  destruct (car_following_returns_acel self self' vd Hlead H) as (r & Hr & _).
  exact (acel_never_without_s_star self Hs vd r Hr).
Qed.


(** X3: an IDM vehicle with [a * b < 0] (a negative acceleration attribute,
    [b] being 1.5) cannot evaluate its desired spacing either: the square
    root raises the domain error (when [k_x] is not zero).  So [acel]
    returns no value, and neither does [car_following] when there is a
    leader. *)
Theorem idm_negative_acceleration_never_returns (self : IDM.t) (vd : float) :
  (Vehicle.a (IDM.veh self) * IDM.b self <? 0) = true ->
  ((K_X =? 0) = false -> s_star self = Raise ValueError)
  /\ (forall d : float, s_star self <> Return d)
  /\ (forall r : float, acel self vd <> Return r)
  /\ (Vehicle.has_leader (IDM.veh self) = true ->
      forall self' : IDM.t, car_following self vd <> Return self').
Proof.
  intros Ha.
  assert (forall d : float, s_star self <> Return d) as Hs
    by (intros d; apply s_star_negative_never; exact Ha).
  split; [|split; [exact Hs | split]].
  - intros HK. rewrite (s_star_negative_product self Ha), (s0_nonzero _ HK).
    reflexivity.
  - apply acel_never_without_s_star. exact Hs.
  - intros Hlead self'. apply car_following_never_without_s_star; assumption.
Qed.


End IDMDomain.

(** ** Which errors the IDM law raises *)

Section IDMErrors.

Variables DT K_X : float.
Variable libm_pow : float -> float -> outcome float.

Local Notation s_star := (IDM.s_star DT K_X).
Local Notation acel := (IDM.acel DT K_X libm_pow).
Local Notation car_following := (IDM.car_following DT K_X libm_pow).

Lemma truediv_attribute_error (x y : float) (name : string) :
  truediv x y <> Raise (AttributeError name).
Proof. unfold truediv. destruct (y =? 0); discriminate. Qed.

Lemma s_star_attribute_error (self : IDM.t) (name : string) :
  s_star self <> Raise (AttributeError name).
Proof.
  unfold IDM.s_star, CarFollowLaw.s0.
  destruct (truediv 1 (CarFollowLaw.k_x K_X (IDM.law self))) as [s0 | e |] eqn:E0;
    py_simpl;
    [ | intros H; injection H as ->; exact (truediv_attribute_error _ _ _ E0)
      | discriminate ].
  destruct (dv_returns (IDM.law self)) as [dv Hdv]. rewrite Hdv. py_simpl.
  unfold math_sqrt.
  destruct (is_nan _ && negb (is_nan _)); py_simpl; try discriminate.
  match goal with
  | |- context [truediv ?x ?y] =>
      destruct (truediv x y) as [q | e |] eqn:E1; py_simpl;
      [ discriminate
      | intros H; injection H as ->; exact (truediv_attribute_error _ _ _ E1)
      | discriminate ]
  end.
Qed.

(** [**] raises an attribute error only if the platform's [pow] does. *)
Lemma pow_attribute_error (v w : float) (name : string) :
  (forall x y : float, libm_pow x y <> Raise (AttributeError name)) ->
  pow libm_pow v w <> Raise (AttributeError name).
Proof.
  intros Hlibm. unfold pow.
  repeat match goal with
         | |- context [if ?c then _ else _] => destruct c
         end; try discriminate.
  all: match goal with
       | |- context [libm_pow ?x ?y] =>
           pose proof (Hlibm x y) as Hxy;
           destruct (libm_pow x y) as [r | e |]; cbn [Py.map bind];
           try discriminate; congruence
       end.
Qed.

(** X5: the only attribute errors of [acel] are those of the two slots:
    when [acel] raises one, either [_v0] is unassigned and the error names
    it, or [_delta] is unassigned and the error names it.  (The platform's
    [pow] is asked not to raise attribute errors itself.)  So an instance on
    which both setters have been called raises none, in [acel] and in
    [car_following]. *)
Theorem idm_attribute_errors_are_unset_slots (self : IDM.t) (vd : float)
    (name : string) :
  (forall (x y : float) (n : string), libm_pow x y <> Raise (AttributeError n)) ->
  (acel self vd = Raise (AttributeError name) ->
   (IDM._v0 self = None /\ name = "_v0"%string)
   \/ (IDM._delta self = None /\ name = "_delta"%string))
  /\ (forall value_v0 value_delta : float,
        let self' := IDM.set_delta value_delta (IDM.set_v0 value_v0 self) in
        acel self' vd <> Raise (AttributeError name)
        /\ car_following self' vd <> Raise (AttributeError name)).
Proof.
  intros Hlibm.
  assert (forall (s : IDM.t) (n : string),
             acel s vd = Raise (AttributeError n) ->
             (IDM._v0 s = None /\ n = "_v0"%string)
             \/ (IDM._delta s = None /\ n = "_delta"%string)) as Hchar.
  { intros s n. unfold IDM.acel, IDM.v0, IDM.delta.
    destruct (IDM._v0 s) as [v0 |]; cbn [slot bind];
      [ | intros H; injection H as <-; left; split; reflexivity ].
    destruct (truediv (Vehicle.v (IDM.veh s)) v0) as [q | e |] eqn:Eq;
      py_simpl;
      [ | intros H; injection H as ->;
          destruct (truediv_attribute_error _ _ _ Eq)
        | discriminate ].
    destruct (IDM._delta s) as [delta |]; cbn [slot bind];
      [ | intros H; injection H as <-; right; split; reflexivity ].
    destruct (pow libm_pow q delta) as [p | e |] eqn:Ep; py_simpl;
      [ | intros H; injection H as ->;
          destruct (pow_attribute_error q delta n (fun x y => Hlibm x y n) Ep)
        | discriminate ].
    destruct (s_star s) as [d | e |] eqn:Ed; py_simpl;
      [ | intros H; injection H as ->; destruct (s_star_attribute_error s n Ed)
        | discriminate ].
    destruct (s_returns (IDM.law s)) as [sp Hsp]. rewrite Hsp. py_simpl.
    destruct (truediv d sp) as [r | e |] eqn:Er; py_simpl;
      [ | intros H; injection H as ->;
          destruct (truediv_attribute_error _ _ _ Er)
        | discriminate ].
    destruct (pow libm_pow r 2) as [p2 | e |] eqn:Ep2; py_simpl;
      [ discriminate
      | intros H; injection H as ->;
        destruct (pow_attribute_error r 2 n (fun x y => Hlibm x y n) Ep2)
      | discriminate ]. }
  split; [apply Hchar|].
  intros value_v0 value_delta self'.
  assert (acel self' vd <> Raise (AttributeError name)) as Hacel.
  { intros H. destruct (Hchar self' name H) as [[H0 _] | [H0 _]]; discriminate. }
  split; [exact Hacel|].
  unfold IDM.car_following.
  destruct (Vehicle.has_leader (IDM.veh self')); [|discriminate].
  destruct (acel self' vd) as [r | e |]; py_simpl; try discriminate.
  intros H. apply Hacel. injection H as ->. reflexivity.
Qed.


End IDMErrors.

(** ** The Tampere law on every vehicle *)

Section TampereDomain.

Variables K_X W_I : float.
Variable Vehicle_init : float -> float -> option Vehicle.t -> Vehicle.t.

Local Notation s_d := (Tampere.s_d K_X W_I).
Local Notation cong_acc := (Tampere.cong_acc K_X W_I).
Local Notation acel := (Tampere.acel K_X W_I).
Local Notation car_following := (Tampere.car_following K_X W_I).
Local Notation constructed := (Tampere.constructed Vehicle_init).

(** [acel] returns the smaller of what its two terms return. *)
Lemma tampere_acel_returns (self : Tampere.t) (vd r : float) :
  acel self vd = Return r ->
  exists c f : float,
    cong_acc self = Return c /\ Tampere.free_acc self vd = Return f
    /\ r = min c f.
Proof.
  unfold Tampere.acel.
  destruct (cong_acc self) as [c | e |]; py_simpl; try discriminate.
  destruct (Tampere.free_acc self vd) as [f | e |]; py_simpl; try discriminate.
  intros H. injection H as <-. exists c, f. repeat split.
Qed.

(** X7: on a constructed Tampere instance, with a leader or without, [acel]
    returns a value exactly when the jam density [k_x] and the product
    [w * k_x] are both non-zero; when either is zero it raises the
    division-by-zero error, and no other error is possible. *)
Theorem tampere_acel_defined_iff (self : Tampere.t) (vd : float) :
  constructed self ->
  if (K_X =? 0) || (W_I * K_X =? 0)
  then acel self vd = Raise ZeroDivisionError
  else exists r : float, acel self vd = Return r.
Proof.
  intros Hc.
  destruct (constructed_slots Vehicle_init self Hc)
    as (c1 & c2 & c3 & H1 & H2 & H3).
  destruct (dv_returns (Tampere.law self)) as [dv Hdv].
  destruct (s_returns (Tampere.law self)) as [sp Hsp].
  unfold Tampere.acel, Tampere.cong_acc, Tampere.free_acc,
    Tampere.c1, Tampere.c2, Tampere.c3.
  rewrite H1, H2, H3, Hdv, Hsp. py_simpl.
  destruct (K_X =? 0) eqn:HK; cbn [orb].
  - unfold Tampere.s_d, CarFollowLaw.s0, CarFollowLaw.k_x.
    rewrite (truediv_zero _ _ HK). reflexivity.
  - destruct (W_I * K_X =? 0) eqn:HWK.
    + rewrite (s_d_zero_product K_X W_I self HWK). reflexivity.
    + rewrite (s_d_defined K_X W_I self HK HWK). py_simpl.
      eexists. reflexivity.
Qed.

(** X8: whenever [acel] returns, what it returns is one of its two terms,
    and neither the congestion term nor the free-flow term is strictly below
    it: the acceleration never exceeds either regime. *)
Theorem tampere_acel_below_both_terms (self : Tampere.t) (vd r : float) :
  acel self vd = Return r ->
  exists c f : float,
    cong_acc self = Return c
    /\ Tampere.free_acc self vd = Return f
    /\ (r = c \/ r = f)
    /\ (c <? r) = false
    /\ (f <? r) = false.
Proof.
  intros H.
  destruct (tampere_acel_returns self vd r H) as (c & f & Hc & Hf & ->).
  exists c, f. split; [exact Hc|]. split; [exact Hf|].
  unfold min. destruct (f <? c) eqn:E.
  - split; [right; reflexivity|]. split.
    + apply ltb_asym. exact E.
    + apply ltb_irrefl.
  - split; [left; reflexivity|]. split.
    + apply ltb_irrefl.
    + exact E.
Qed.

(** X9: a Tampere vehicle already at the desired speed never accelerates:
    when [vd] is the vehicle's own speed [v_t] (finite, with a finite
    coefficient [c3]), the free-flow term is a zero and the acceleration
    [acel] returns is never positive. *)
Theorem tampere_no_acceleration_at_desired_speed (self : Tampere.t) (c3 r : float) :
  Tampere._c3 self = Some c3 ->
  is_finite c3 = true ->
  is_finite (Vehicle.v_t (Tampere.veh self)) = true ->
  acel self (Vehicle.v_t (Tampere.veh self)) = Return r ->
  (0 <? r) = false.
Proof.
  intros H3 Hc3 Hv H.
  destruct (tampere_acel_returns self _ r H) as (c & f & Hc & Hf & ->).
  unfold Tampere.free_acc, Tampere.c3 in Hf. rewrite H3 in Hf.
  cbn [slot bind] in Hf. injection Hf as <-.
  rewrite (sub_self _ Hv).
  assert ((c3 * 0 =? 0) = true) as Hz by (apply mul_zero_r; [exact Hc3 | reflexivity]).
  unfold min. destruct (c3 * 0 <? c) eqn:E.
  - rewrite (ltb_zero_r (c3 * 0) 0 Hz). reflexivity.
  - rewrite (ltb_zero_l (c3 * 0) c Hz) in E. exact E.
Qed.

(** The Tampere terms read neither the acceleration nor the control input. *)
Lemma tampere_acel_set_a (self : Tampere.t) (value vd : float) :
  acel (Tampere.set_a value self) vd = acel self vd.
Proof. reflexivity. Qed.

(** X10: the Tampere law has no memory of its own result: when
    [car_following] returns, calling it again with the same desired speed
    (and an unchanged leader) returns the same vehicle. *)
Theorem tampere_car_following_idempotent (self self' : Tampere.t) (vd : float) :
  car_following self vd = Return self' ->
  car_following self' vd = Return self'.
Proof.
  unfold Tampere.car_following.
  destruct (Vehicle.has_leader (Tampere.veh self)) eqn:Hlead.
  - destruct (acel self vd) as [r | e |] eqn:Hr; py_simpl; try discriminate.
    intros H. injection H as <-.
    change (Vehicle.has_leader (Tampere.veh (Tampere.set_a r self)))
      with (Vehicle.has_leader (Tampere.veh self)).
    rewrite Hlead, tampere_acel_set_a, Hr. reflexivity.
  - intros H. injection H as <-.
    change (Vehicle.has_leader
              (Tampere.veh (Tampere.set_a (Vehicle.control (Tampere.veh self)) self)))
      with (Vehicle.has_leader (Tampere.veh self)).
    rewrite Hlead. reflexivity.
Qed.

End TampereDomain.

(** ** What a step changes *)

Section Frame.

Variables DT K_X W_I : float.
Variable shift_state : Vehicle.t -> Vehicle.t.
Variable libm_pow : float -> float -> outcome float.

Local Notation idm_car_following := (IDM.car_following DT K_X libm_pow).
Local Notation tampere_car_following := (Tampere.car_following K_X W_I).
Local Notation idm_step :=
  (@CarFollowLaw.step_evolution shift_state _ (IDM.Law_IDM DT K_X libm_pow)).
Local Notation tampere_step :=
  (@CarFollowLaw.step_evolution shift_state _ (Tampere.Law_Tampere K_X W_I)).





End Frame.

(** ** NaN and the sign of the dynamic spacing *)

Section IDMNaN.

Variables DT K_X : float.
Variable libm_pow : float -> float -> outcome float.

Local Notation s_star := (IDM.s_star DT K_X).
Local Notation acel := (IDM.acel DT K_X libm_pow).
Local Notation car_following := (IDM.car_following DT K_X libm_pow).

Lemma SFeqb_finite_refl (s : bool) (m : positive) (e : Z) :
  SFeqb (S754_finite s m e) (S754_finite s m e) = true.
Proof.
  unfold SFeqb, SFcompare. rewrite Z.compare_refl.
  change PosDef.Pos.compare_cont with Pos.compare_cont.
  rewrite Pos.compare_cont_refl. destruct s; reflexivity.
Qed.

(** There is one NaN. *)
Lemma is_nan_eq (x : float) : is_nan x = true -> x = nan.
Proof.
  unfold is_nan. rewrite FloatAxioms.eqb_spec. intros H.
  apply Prim2SF_inj.
  destruct (Prim2SF x) as [s | s | | s m e]; try (destruct s; discriminate).
  - reflexivity.
  - rewrite SFeqb_finite_refl in H. discriminate.
Qed.

Lemma mul_nan_l (y : float) : nan * y = nan.
Proof. apply Prim2SF_inj. rewrite mul_spec. reflexivity. Qed.

Lemma div_nan_r (x : float) : x / nan = nan.
Proof.
  apply Prim2SF_inj. rewrite div_spec.
  change (Prim2SF nan) with S754_nan.
  destruct (Prim2SF x); reflexivity.
Qed.

Lemma add_nan_r (x : float) : x + nan = nan.
Proof.
  apply Prim2SF_inj. rewrite add_spec.
  change (Prim2SF nan) with S754_nan.
  destruct (Prim2SF x); reflexivity.
Qed.

(** A float above zero is neither NaN nor below zero. *)
Lemma positive_not_nan (y : float) : (0 <? y) = true -> is_nan y = false.
Proof.
  unfold is_nan. rewrite ltb_spec, FloatAxioms.eqb_spec.
  change (Prim2SF 0) with (S754_zero false).
  destruct (Prim2SF y) as [s | s | | s m e]; try discriminate;
    intros _; try (destruct s; reflexivity).
  rewrite SFeqb_finite_refl. reflexivity.
Qed.

(** What [acel] returns is the acceleration attribute times a factor. *)
Lemma acel_returns_product (self : IDM.t) (vd r : float) :
  acel self vd = Return r ->
  exists y : float, r = Vehicle.a (IDM.veh self) * y.
Proof.
  unfold IDM.acel.
  destruct (IDM.v0 self) as [v0 | e |]; py_simpl; try discriminate.
  destruct (truediv (Vehicle.v (IDM.veh self)) v0) as [q | e |]; py_simpl;
    try discriminate.
  destruct (IDM.delta self) as [delta | e |]; py_simpl; try discriminate.
  destruct (pow libm_pow q delta) as [p | e |]; py_simpl; try discriminate.
  destruct (s_star self) as [d | e |]; py_simpl; try discriminate.
  destruct (CarFollowLaw.s (IDM.law self)) as [sp | e |]; py_simpl;
    try discriminate.
  destruct (truediv d sp) as [q2 | e |]; py_simpl; try discriminate.
  destruct (pow libm_pow q2 2) as [p2 | e |]; py_simpl; try discriminate.
  intros H. injection H as <-. eexists. reflexivity.
Qed.

(** X13: a NaN acceleration attribute is neither reported nor repaired.
    [s_star()] raises nothing for it: the NaN term loses against 0 in [max]
    and the desired spacing is the minimum spacing [1/k_x] plus 0.  And
    whatever [acel] returns on such a vehicle is NaN again, which
    [car_following] stores back into the attribute. *)
Theorem idm_nan_acceleration_persists (self : IDM.t) (vd : float) :
  is_nan (Vehicle.a (IDM.veh self)) = true ->
  ((K_X =? 0) = false -> s_star self = Return (1 / K_X + 0))
  /\ (forall r : float, acel self vd = Return r -> is_nan r = true)
  /\ (forall self' : IDM.t,
        Vehicle.has_leader (IDM.veh self) = true ->
        car_following self vd = Return self' ->
        is_nan (Vehicle.a (IDM.veh self')) = true).
Proof.
  intros Hnan.
  pose proof (is_nan_eq _ Hnan) as Ha.
  assert (forall r : float, acel self vd = Return r -> is_nan r = true) as Hacel.
  { intros r Hr. destruct (acel_returns_product self vd r Hr) as [y ->].
    rewrite Ha, mul_nan_l. reflexivity. }
  split; [|split; [exact Hacel|]].
  - intros HK. unfold IDM.s_star.
    rewrite (s0_nonzero K_X _ HK). py_simpl.
    destruct (dv_returns (IDM.law self)) as [dv Hdv]. rewrite Hdv. py_simpl.
    rewrite Ha.
    change (math_sqrt (nan * IDM.b self)) with (Return nan). py_simpl.
    change (truediv (Vehicle.v (IDM.veh self) * dv) (2 * nan))
      with (Return (Vehicle.v (IDM.veh self) * dv / nan)).
    py_simpl. rewrite div_nan_r, add_nan_r. reflexivity.
  - intros self' Hlead H.
    destruct (car_following_returns_acel DT K_X libm_pow self self' vd Hlead H)
      as (r & Hr & ->).
    exact (Hacel r Hr).
Qed.

(** X14: whenever [s_star()] returns, it returns the minimum spacing [1/k_x]
    plus a term that is neither negative nor NaN: the [max] with 0 keeps the
    dynamic part of the desired spacing from shortening it. *)
Theorem idm_s_star_adds_nonnegative_term (self : IDM.t) (d : float) :
  s_star self = Return d ->
  exists m : float,
    d = 1 / K_X + m /\ (m <? 0) = false /\ is_nan m = false.
Proof.
  unfold IDM.s_star, CarFollowLaw.s0, CarFollowLaw.k_x, truediv at 1.
  destruct (K_X =? 0); py_simpl; try discriminate.
  destruct (CarFollowLaw.dv (IDM.law self)) as [dv | e |]; py_simpl;
    try discriminate.
  destruct (math_sqrt (Vehicle.a (IDM.veh self) * IDM.b self)) as [r | e |];
    py_simpl; try discriminate.
  match goal with
  | |- context [truediv ?x ?y] =>
      destruct (truediv x y) as [q | e |]; py_simpl; try discriminate
  end.
  intros H. injection H as <-.
  eexists. split; [reflexivity|].
  unfold max.
  match goal with
  | |- context [if 0 <? ?y then _ else _] => destruct (0 <? y) eqn:E
  end.
  - split; [apply ltb_asym; exact E | apply positive_not_nan; exact E].
  - split; reflexivity.
Qed.

End IDMNaN.

(** ** Worked examples for the further properties *)


(** Nor can the follower whose acceleration is -1.5. *)
Lemma idm_negative_acceleration_never_returns_witness :
  IDM.s_star Example.DT Example.K_X Example.idm' = Raise ValueError.
Proof.
  exact (proj1 (idm_negative_acceleration_never_returns Example.DT Example.K_X
                  Example.libm_pow Example.idm' 25 eq_refl) eq_refl).
Defined.


(** The fresh IDM vehicle raises for [_v0]; once both setters have been
    called it raises no attribute error. *)
Lemma idm_attribute_errors_are_unset_slots_witness :
  ((IDM._v0 Example.idm_fresh = None /\ "_v0"%string = "_v0"%string)
   \/ (IDM._delta Example.idm_fresh = None /\ "_v0"%string = "_delta"%string))
  /\ IDM.acel Example.DT Example.K_X Example.libm_pow Example.idm_set 25
     <> Raise (AttributeError "_v0").
Proof.
  assert (forall (x y : float) (n : string),
             Example.libm_pow x y <> Raise (AttributeError n)) as Hlibm
    by (intros x y n; discriminate).
  pose proof (idm_attribute_errors_are_unset_slots Example.DT Example.K_X
                Example.libm_pow Example.idm_fresh 25 "_v0" Hlibm) as H.
  split.
  - exact (proj1 H eq_refl).
  - exact (proj1 (proj2 H 3 4)).
Defined.


(** The Tampere follower: a value with the constants of the examples, the
    division error when the shockwave speed is 0. *)
Lemma tampere_acel_defined_iff_witness :
  (exists r : float,
      Tampere.acel Example.K_X Example.W_I Example.tampere 25 = Return r)
  /\ Tampere.acel Example.K_X 0 Example.tampere 25 = Raise ZeroDivisionError.
Proof.
  split.
  - exact (tampere_acel_defined_iff Example.K_X Example.W_I Example.Vehicle_init
             Example.tampere 25
             (Tampere.constructed_veh _ (fun _ => Example.follower) _
                (Tampere.constructed_init _ 1.5 2 None C_1 C_2 C_3))).
  - exact (tampere_acel_defined_iff Example.K_X 0 Example.Vehicle_init
             Example.tampere 25
             (Tampere.constructed_veh _ (fun _ => Example.follower) _
                (Tampere.constructed_init _ 1.5 2 None C_1 C_2 C_3))).
Defined.

(** The Tampere follower: 2.25 is its congestion term, below the free-flow
    term 11.5. *)
Lemma tampere_acel_below_both_terms_witness :
  exists c f : float,
    Tampere.cong_acc Example.K_X Example.W_I Example.tampere = Return c
    /\ Tampere.free_acc Example.tampere 25 = Return f
    /\ (2.25 = c \/ 2.25 = f)
    /\ (c <? 2.25) = false
    /\ (f <? 2.25) = false.
Proof.
  exact (tampere_acel_below_both_terms Example.K_X Example.W_I Example.tampere
           25 2.25 eq_refl).
Defined.

(** The Tampere follower asked for its own speed 2: the acceleration is 0. *)
Lemma tampere_no_acceleration_at_desired_speed_witness :
  Tampere.acel Example.K_X Example.W_I Example.tampere 2 = Return 0
  /\ (0 <? 0) = false.
Proof.
  split; [reflexivity|].
  exact (tampere_no_acceleration_at_desired_speed Example.K_X Example.W_I
           Example.tampere 0.5 0 eq_refl eq_refl eq_refl eq_refl).
Defined.

(** A second [car_following] leaves the Tampere follower as the first one
    did. *)
Lemma tampere_car_following_idempotent_witness :
  Tampere.car_following Example.K_X Example.W_I Example.tampere' 25
  = Return Example.tampere'.
Proof.
  exact (tampere_car_following_idempotent Example.K_X Example.W_I
           Example.tampere Example.tampere' 25 eq_refl).
Defined.

(** The IDM vehicle whose acceleration is NaN: the desired spacing is 4, and
    the acceleration computed from it is NaN again. *)
Lemma idm_nan_acceleration_persists_witness :
  IDM.s_star Example.DT Example.K_X Example.idm_nan = Return 4
  /\ IDM.acel Example.DT Example.K_X Example.libm_pow Example.idm_nan 25 = Return nan
  /\ is_nan nan = true.
Proof.
  pose proof (idm_nan_acceleration_persists Example.DT Example.K_X Example.libm_pow
                Example.idm_nan 25 eq_refl) as H.
  split; [exact (proj1 H eq_refl)|].
  split; [reflexivity|].
  exact (proj1 (proj2 H) nan eq_refl).
Defined.

(** The desired spacing 8.5 of the IDM follower is 4 plus 4.5. *)
Lemma idm_s_star_adds_nonnegative_term_witness :
  exists m : float,
    8.5 = 1 / Example.K_X + m /\ (m <? 0) = false /\ is_nan m = false.
Proof.
  exact (idm_s_star_adds_nonnegative_term Example.DT Example.K_X Example.idm 8.5
           eq_refl).
Defined.
